(** * particleconversion: the bootstrap of the particle-conversion simulation

    A shallow embedding of
    [src/simulation/particleconversion/particleconversion.cpp].

    The file is a C++ [main] with three cog blocks.  cog runs at build time:
    it reads [conf] (MMconfig) and writes C++ text between the block markers.
    The embedding has the same two stages:

    - [cog] reads the configuration dictionary and yields what the three
      blocks generate; it fails where the Python code raises [KeyError];
    - [main] is the C++ function, over what [cog] generated, the build flag
      [G4MULTITHREADED] and [argv].

    Geant4, CLHEP and ROOT are outside the repository.  [main] only calls
    them and ignores what they return, so it is modelled as a program over
    the calls it makes ([prog]); [run] executes such a program against an
    environment that says, call by call, whether the call returns. *)

From Stdlib Require Import ZArith Ascii.
From stdpp Require Import base strings list gmap.

(** ** Build-time configuration and code generation *)

(** [conf]: a dictionary of sections, each a dictionary of entries. *)
Abbreviation config := (gmap string (gmap string string)).

(** What the third cog block (process macro or start UI session) writes:
    either the three statements that run [macro_path], or the statements of
    [ui_start()]. *)
Inductive process : Type :=
| RunMacro (macro_path : string)
| UiStart.

(** The generated parts of [main]: the values of the two generated string
    literals and the generated block.  [main] below is stated over these.
    [format] pastes a configured string between the quotes of a C++
    literal; [cog] records the pasted text.  The text is the value of the
    literal when it is plain ([plain] below): a quote, a backslash, a
    question mark (trigraphs) or a control character would make the
    compiler read something else.  What is proved about [main] is stated
    over [generated]; a statement that equates a string of the run with a
    configured entry assumes [plain_literals]. *)
Record generated : Type := Generated {
  gen_macroFolder : string;      (* macroFolder = "{macro_folder}"; *)
  gen_outputfileName : string;   (* outputfileName = "{out_filename}"; *)
  gen_process : process
}.

(** The three cog blocks, in the order cog evaluates them.  [d[k]] on a
    missing key raises [KeyError] (here [None]): nothing is generated. *)
Definition cog (conf : config) : option generated :=
  macro_folder ← conf !! "particleconversion" ≫= (.!! "macro_folder");
  out_filename ← conf !! "particleconversion" ≫= (.!! "out_filename");
  particleconversion ← conf !! "particleconversion";
  Some (Generated macro_folder out_filename
          match particleconversion !! "macro_path" with
          | Some macro_path =>
              if decide (macro_path ≠ EmptyString) then RunMacro macro_path
              else UiStart
          | None => UiStart
          end).

(** A character that stands for itself between the quotes of a C++ string
    literal: printable ASCII other than the quote, the backslash and the
    question mark. *)
Definition plain_char (c : ascii) : bool :=
  let n := nat_of_ascii c in
  (32 <=? n) && (n <=? 126) &&
  negb (n =? 34) && negb (n =? 92) && negb (n =? 63).

Definition plain (text : string) : bool :=
  forallb plain_char (String.list_ascii_of_string text).

(** The texts pasted into the generated code are plain. *)
Definition plain_literals (g : generated) : bool :=
  plain (gen_macroFolder g) && plain (gen_outputfileName g) &&
  match gen_process g with
  | RunMacro macro_path => plain macro_path
  | UiStart => true
  end.

(** ** Objects, calls and programs *)

(** The identity of an object created by [new]. *)
Definition ptr : Type := nat.

(** A [new] expression: the class and the constructor's arguments. *)
Inductive class : Type :=
| RanecuEngine
| G4MTRunManager
| G4RunManager
| PhysicsList
| DetectorConstruction
| ActionInitialization (detectorConstruction : ptr) (outputfileName : string)
| G4VisExecutive
| G4UIExecutive (argc : Z) (argv : list string).

(** The other calls [main] makes.  [Cout text] is one statement
    [G4cout << ... ;], [text] being what it inserts, in order.
    [G4UImanager] is a singleton, so [ApplyCommand] names no receiver. *)
Inductive call : Type :=
| Cout (text : string)
| SetTheEngine (engine : ptr)
| SetUserInitialization (runManager initialization : ptr)
| Initialize (visManager : ptr)
| GetUIpointer
| ApplyCommand (command : string)
| SessionStart (ui : ptr)
| Delete (object : ptr).

Inductive event : Type :=
| Enew (c : class) (p : ptr)
| Ecall (c : call).

Global Instance class_eq_dec : EqDecision class.
Proof. solve_decision. Defined.
Global Instance call_eq_dec : EqDecision call.
Proof. solve_decision. Defined.
Global Instance event_eq_dec : EqDecision event.
Proof. solve_decision. Defined.

(** Straight-line code over these calls. *)
Inductive prog (A : Type) : Type :=
| Ret (a : A)
| New (c : class) (k : ptr → prog A)
| Call (c : call) (k : prog A).
Arguments Ret {A} a.
Arguments New {A} c k.
Arguments Call {A} c k.

Fixpoint prog_bind {A B : Type} (f : A → prog B) (m : prog A) : prog B :=
  match m with
  | Ret a => f a
  | New c k => New c (λ p, prog_bind f (k p))
  | Call c k => Call c (prog_bind f k)
  end.

Global Instance prog_ret : MRet prog := @Ret.
Global Instance prog_mbind : MBind prog := @prog_bind.

Definition new (c : class) : prog ptr := New c Ret.
Definition do (c : call) : prog unit := Call c (Ret ()).

(** ** The environment and the execution of a program *)

Record world : Type := World {
  log : list event;   (* the calls made so far, oldest first *)
  next : ptr          (* the identity the next [new] gives *)
}.

Inductive result (A : Type) : Type :=
| Returned (a : A)
| Halted.
Arguments Returned {A} a.
Arguments Halted {A}.

Section run.
(** [returns i e]: the call [e], made as the [i]-th of the run, returns to
    [main].  Otherwise it throws (nothing in [main] catches), aborts, or
    never comes back, and the run stops there. *)
Variable returns : nat → event → bool.

Fixpoint run {A : Type} (m : prog A) (w : world) : result A * world :=
  match m with
  | Ret a => (Returned a, w)
  | New c k =>
      let e := Enew c (next w) in
      let w' := World (log w ++ [e]) (S (next w)) in
      if returns (length (log w)) e then run (k (next w)) w'
      else (Halted, w')
  | Call c k =>
      let e := Ecall c in
      let w' := World (log w ++ [e]) (next w) in
      if returns (length (log w)) e then run k w' else (Halted, w')
  end.
End run.

(** The environment in which every call returns. *)
Definition cooperative : nat → event → bool := λ _ _, true.

Definition start : world := World [] 0.

(** ** main *)

(** [G4endl] *)
Definition G4endl : string := String "010"%char EmptyString.

(** [argv[i]]; [main] only reads [argv] below [argc]. *)
Definition arg (argv : list string) (i : nat) : string :=
  default EmptyString (argv !! i).

(** Lines 27-45: the output file name and the macro folder.  A [TString]
    is modelled by its value: its construction, assignment and [+] are
    operations on strings, not calls of the run. *)
Definition main_parameters (g : generated) (argv : list string)
  : prog (string * string) :=
  let argc := Z.of_nat (length argv) in
  let outputfileName := EmptyString in
  let macroFolder := EmptyString in
  let macroFolder := gen_macroFolder g in
  if (argc =? 2)%Z then
    do (Cout "Using command line parameters as out file: ");;
    let outputfileName := arg argv 1 in
    do (Cout (outputfileName +:+ G4endl));;
    mret (outputfileName, macroFolder)
  else if (argc =? 3)%Z then
    do (Cout "Using command line parameters as out file: ");;
    let outputfileName := arg argv 1 in
    let macroFolder := arg argv 2 in
    do (Cout (outputfileName +:+ " and also for macro directory "
                +:+ macroFolder +:+ G4endl));;
    mret (outputfileName, macroFolder)
  else
    let outputfileName := gen_outputfileName g in
    mret (outputfileName, macroFolder).

(** The cog function [ui_start]: the statements it writes. *)
Definition ui_start (argv : list string) (macroFolder : string) : prog unit :=
  let argc := Z.of_nat (length argv) in
  ui ← new (G4UIExecutive argc argv);
  do GetUIpointer;;
  do (ApplyCommand ("/control/macroPath " +:+ macroFolder));;
  do (ApplyCommand "/control/execute vis.mac");;
  do (SessionStart ui);;
  do (Delete ui).

(** Lines 72-95: the statements of the third cog block. *)
Definition main_process (p : process) (argv : list string)
    (macroFolder : string) : prog unit :=
  match p with
  | RunMacro macro_path =>
      do GetUIpointer;;
      do (ApplyCommand ("/control/macroPath " +:+ macroFolder));;
      do (ApplyCommand ("/control/execute " +:+ macro_path))
  | UiStart => ui_start argv macroFolder
  end.

Definition main (g : generated) (G4MULTITHREADED : bool) (argv : list string)
  : prog Z :=
  '(outputfileName, macroFolder) ← main_parameters g argv;
  (* Choose the Random engine *)
  engine ← new RanecuEngine;
  do (SetTheEngine engine);;
  (* Construct the default run manager *)
  runManager ← new (if G4MULTITHREADED then G4MTRunManager else G4RunManager);
  (* Set mandatory initialization classes *)
  physicsList ← new PhysicsList;
  do (SetUserInitialization runManager physicsList);;
  detectorConstruction ← new DetectorConstruction;
  do (SetUserInitialization runManager detectorConstruction);;
  (* User action initialization *)
  actionInitialization ←
    new (ActionInitialization detectorConstruction outputfileName);
  do (SetUserInitialization runManager actionInitialization);;
  (* Initialize visualization *)
  visManager ← new G4VisExecutive;
  do (Initialize visManager);;
  (* Process macro or start UI session *)
  main_process (gen_process g) argv macroFolder;;
  do (Delete visManager);;
  do (Delete runManager);;
  (* a [main] that ends without [return] returns 0 *)
  mret 0%Z.

(** What a run shows: the calls made, and the exit status when [main]
    returns. *)
Definition trace (returns : nat → event → bool) (g : generated)
    (G4MULTITHREADED : bool) (argv : list string) : list event :=
  log (run returns (main g G4MULTITHREADED argv) start).2.

Definition exit_status (returns : nat → event → bool) (g : generated)
    (G4MULTITHREADED : bool) (argv : list string) : option Z :=
  match (run returns (main g G4MULTITHREADED argv) start).1 with
  | Returned status => Some status
  | Halted => None
  end.

(** The calls a program makes when every call returns, the next new
    object being [n]. *)
Definition calls {A : Type} (m : prog A) (n : ptr) : list event :=
  log (run cooperative m (World [] n)).2.

(** An action of the execution mode: a command given to the command
    interpreter, or a step of a UI session. *)
Definition execution_action (e : event) : bool :=
  match e with
  | Enew (G4UIExecutive _ _) _ => true
  | Ecall GetUIpointer => true
  | Ecall (ApplyCommand _) => true
  | Ecall (SessionStart _) => true
  | _ => false
  end.

(** A step of subsystem registration. *)
Definition registration_step (e : event) : bool :=
  match e with
  | Enew PhysicsList _ => true
  | Enew DetectorConstruction _ => true
  | Enew (ActionInitialization _ _) _ => true
  | Ecall (SetUserInitialization _ _) => true
  | _ => false
  end.

(** A step of a UI session. *)
Definition ui_session_step (e : event) : bool :=
  match e with
  | Enew (G4UIExecutive _ _) _ => true
  | Ecall (SessionStart _) => true
  | _ => false
  end.

(** ** Kinds of events *)

(** A statement [G4cout << ... ;]. *)
Definition is_Cout (e : event) : bool :=
  match e with Ecall (Cout _) => true | _ => false end.

(** A [new] expression. *)
Definition is_new (e : event) : bool :=
  match e with Enew _ _ => true | _ => false end.

(** A [delete] statement. *)
Definition is_Delete (e : event) : bool :=
  match e with Ecall (Delete _) => true | _ => false end.

(** The creation of a run manager, of either kind. *)
Definition is_run_manager (e : event) : bool :=
  match e with
  | Enew G4MTRunManager _ => true
  | Enew G4RunManager _ => true
  | _ => false
  end.

(** The creation of the action initialization. *)
Definition is_ActionInitialization (e : event) : bool :=
  match e with Enew (ActionInitialization _ _) _ => true | _ => false end.

(** A command given to the command interpreter. *)
Definition is_ApplyCommand (e : event) : bool :=
  match e with Ecall (ApplyCommand _) => true | _ => false end.

(** The same event in the build with [G4MULTITHREADED]: only the class of
    the run manager differs. *)
Definition multithreaded (e : event) : event :=
  match e with
  | Enew G4RunManager p => Enew G4MTRunManager p
  | _ => e
  end.

(** ** Three build configurations *)

(** No [macro_path]. *)
Definition conf_interactive : config :=
  {[ "particleconversion" :=
       {[ "macro_folder" := "macros"; "out_filename" := "out.root" ]} ]}.

(** A [macro_path]. *)
Definition conf_batch : config :=
  {[ "particleconversion" :=
       {[ "macro_folder" := "macros"; "out_filename" := "out.root";
          "macro_path" := "batch.mac" ]} ]}.

(** A [macro_path] that is the empty string. *)
Definition conf_empty_macro_path : config :=
  {[ "particleconversion" :=
       {[ "macro_folder" := "macros"; "out_filename" := "out.root";
          "macro_path" := EmptyString ]} ]}.

(** An environment in which the UI session never ends. *)
Definition session_never_ends : nat → event → bool :=
  λ _ e, match e with Ecall (SessionStart _) => false | _ => true end.

(** * Properties *)

(** ** Executing a program *)

Section run_facts.
Context {A : Type}.
Implicit Types (m : prog A) (w : world) (returns : nat → event → bool).

(** A run only adds to the log. *)
Lemma run_log_extends returns m w :
  log w `prefix_of` log (run returns m w).2.
Proof.
  revert w; induction m as [a | c k IH | c k IH]; intros w; simpl.
  - done.
  - destruct (returns _ _); simpl.
    + etrans; [|apply IH]. by apply prefix_app_r.
    + by apply prefix_app_r.
  - destruct (returns _ _); simpl.
    + etrans; [|apply IH]. by apply prefix_app_r.
    + by apply prefix_app_r.
Qed.

(** When every call returns, the program returns. *)
Lemma run_cooperative_returns m w :
  ∃ a w', run cooperative m w = (Returned a, w').
Proof.
  revert w; induction m as [a | c k IH | c k IH]; intros w; simpl; eauto.
Qed.

(** Whatever the environment, the calls made are an initial part of the
    calls made when every call returns. *)
Lemma run_log_cooperative returns m w :
  log (run returns m w).2 `prefix_of` log (run cooperative m w).2.
Proof.
  revert w; induction m as [a | c k IH | c k IH]; intros w; simpl.
  - done.
  - destruct (returns _ _); simpl; [apply IH|].
    apply (run_log_extends cooperative (k (next w))).
  - destruct (returns _ _); simpl; [apply IH|].
    apply (run_log_extends cooperative k).
Qed.

(** A program that returns has done what it does when every call
    returns. *)
Lemma run_returned returns m w a w' :
  run returns m w = (Returned a, w') →
  run cooperative m w = (Returned a, w').
Proof.
  revert w; induction m as [b | c k IH | c k IH]; intros w; simpl.
  - done.
  - destruct (returns _ _); [apply IH | done].
  - destruct (returns _ _); [apply IH | done].
Qed.

(** If each call made in the run returned, the run is the cooperative
    one. *)
Lemma run_all_returned returns m w :
  (∀ i e, log (run returns m w).2 !! i = Some e → returns i e = true) →
  run returns m w = run cooperative m w.
Proof.
  revert w; induction m as [a | c k IH | c k IH]; intros w; simpl.
  - done.
  - intros H.
    assert (returns (length (log w)) (Enew c (next w)) = true) as Hr.
    { apply H. eapply prefix_lookup_Some; [|destruct (returns _ _); simpl;
        [apply run_log_extends | reflexivity]]; simpl;
        by rewrite lookup_app_r, Nat.sub_diag. }
    rewrite Hr in H |- *. by apply IH.
  - intros H.
    assert (returns (length (log w)) (Ecall c) = true) as Hr.
    { apply H. eapply prefix_lookup_Some; [|destruct (returns _ _); simpl;
        [apply run_log_extends | reflexivity]]; simpl;
        by rewrite lookup_app_r, Nat.sub_diag. }
    rewrite Hr in H |- *. by apply IH.
Qed.

(** A call that does not return is the last of the run: [main] is blocked
    in it, or gone. *)
Lemma run_blocked returns m w i e :
  log (run returns m w).2 !! i = Some e →
  length (log w) ≤ i →
  returns i e = false →
  length (log (run returns m w).2) = S i.
Proof.
  revert w; induction m as [a | c k IH | c k IH]; intros w; simpl.
  - intros H%lookup_lt_Some. lia.
  - destruct (returns (length (log w)) _) eqn:Hr; simpl.
    + intros Hi Hle Hf. destruct (decide (i = length (log w))) as [->|].
      * pose proof (run_log_extends returns (k (next w))
          (World (log w ++ [Enew c (next w)]) (S (next w)))) as Hp.
        eapply prefix_lookup_Some in Hp;
          [|simpl; by rewrite lookup_app_r, Nat.sub_diag].
        simpl in Hp. congruence.
      * apply IH; [done | simpl; rewrite length_app; simpl; lia | done].
    + intros Hi Hle Hf. apply lookup_lt_Some in Hi.
      rewrite length_app in *; simpl in *. lia.
  - destruct (returns (length (log w)) _) eqn:Hr; simpl.
    + intros Hi Hle Hf. destruct (decide (i = length (log w))) as [->|].
      * pose proof (run_log_extends returns k
          (World (log w ++ [Ecall c]) (next w))) as Hp.
        eapply prefix_lookup_Some in Hp;
          [|simpl; by rewrite lookup_app_r, Nat.sub_diag].
        simpl in Hp. congruence.
      * apply IH; [done | simpl; rewrite length_app; simpl; lia | done].
    + intros Hi Hle Hf. apply lookup_lt_Some in Hi.
      rewrite length_app in *; simpl in *. lia.
Qed.
End run_facts.

(** [run] of a sequence. *)
Lemma run_bind {A B : Type} returns (f : A → prog B) (m : prog A) w :
  run returns (m ≫= f) w =
  match run returns m w with
  | (Returned a, w') => run returns (f a) w'
  | (Halted, w') => (Halted, w')
  end.
Proof.
  revert w; induction m as [a | c k IH | c k IH]; intros w; simpl.
  - done.
  - destruct (returns _ _); [apply IH | done].
  - destruct (returns _ _); [apply IH | done].
Qed.

(** ** The cooperative run of [main] *)

(** Lines 27-45 make no object and only write to [G4cout]. *)
Lemma main_parameters_cooperative g argv w :
  ∃ notices outputfileName macroFolder,
    Forall (λ e, ∃ text, e = Ecall (Cout text)) notices ∧
    run cooperative (main_parameters g argv) w =
      (Returned (outputfileName, macroFolder),
       World (log w ++ notices) (next w)).
Proof.
  unfold main_parameters.
  destruct (_ =? 2)%Z; [|destruct (_ =? 3)%Z]; simpl.
  - eexists [_; _], _, _. rewrite <- app_assoc. split; [|done].
    repeat constructor; eauto.
  - eexists [_; _], _, _. rewrite <- app_assoc. split; [|done].
    repeat constructor; eauto.
  - eexists [], _, _. rewrite app_nil_r. split; [constructor|].
    by destruct w.
Qed.

Lemma main_cooperative g G4MULTITHREADED argv :
  ∃ notices outputfileName macroFolder session n,
    Forall (λ e, ∃ text, e = Ecall (Cout text)) notices ∧
    run cooperative (main_parameters g argv) start =
      (Returned (outputfileName, macroFolder), World notices 0) ∧
    run cooperative (main_process (gen_process g) argv macroFolder)
        (World [] 6) = (Returned (), World session n) ∧
    run cooperative (main g G4MULTITHREADED argv) start =
      (Returned 0%Z,
       World (notices ++
              [Enew RanecuEngine 0; Ecall (SetTheEngine 0);
               Enew (if G4MULTITHREADED then G4MTRunManager
                     else G4RunManager) 1;
               Enew PhysicsList 2; Ecall (SetUserInitialization 1 2);
               Enew DetectorConstruction 3;
               Ecall (SetUserInitialization 1 3);
               Enew (ActionInitialization 3 outputfileName) 4;
               Ecall (SetUserInitialization 1 4);
               Enew G4VisExecutive 5; Ecall (Initialize 5)] ++
              session ++ [Ecall (Delete 5); Ecall (Delete 1)]) n).
Proof.
  destruct (main_parameters_cooperative g argv start)
    as (notices & outputfileName & macroFolder & Hn & Hp).
  simpl in Hp. unfold main. rewrite run_bind, Hp. simpl.
  destruct (gen_process g); simpl;
    repeat rewrite <- app_assoc; simpl;
    eexists notices, _, _, _, _; (split; [done|]); (split; [done|]);
    (split; [done|]); done.
Qed.

Lemma trace_cooperative returns g G4MULTITHREADED argv :
  trace returns g G4MULTITHREADED argv
    `prefix_of` trace cooperative g G4MULTITHREADED argv.
Proof. apply run_log_cooperative. Qed.

(** In a run that went past a call, that call returned. *)
Lemma trace_returned returns g G4MULTITHREADED argv before e after :
  trace returns g G4MULTITHREADED argv = before ++ e :: after →
  ∀ i x, before !! i = Some x → returns i x = true.
Proof.
  intros Htr i x Hi. destruct (returns i x) eqn:Hr; [done|].
  unfold trace in Htr.
  pose proof (run_blocked returns (main g G4MULTITHREADED argv) start i x)
    as Hb.
  rewrite Htr in Hb. rewrite length_app in Hb; simpl in Hb.
  apply lookup_lt_Some in Hi as Hlt.
  rewrite lookup_app_l in Hb by done.
  specialize (Hb Hi ltac:(lia) Hr). lia.
Qed.

(** If a run reaches an event that the first part of the script has not,
    the whole first part came before it. *)
Lemma prefix_reaches (P : event → bool) before e after script rest :
  before ++ e :: after `prefix_of` script ++ rest →
  Forall (λ x, P x = false) script →
  P e = true →
  ∃ l, before = script ++ l.
Proof.
  intros [k Hk] Hs He. rewrite <- app_assoc in Hk.
  apply app_eq_inv in Hk as [(l & -> & Hl) | (l & -> & _)]; [|by eexists].
  destruct l as [|x l]; [exists []; by rewrite !app_nil_r|].
  simplify_eq/=. apply Forall_app in Hs as [_ Hs].
  apply Forall_cons in Hs as [Hx _]. congruence.
Qed.

Lemma notices_no_action notices (P : event → bool) :
  Forall (λ e, ∃ text, e = Ecall (Cout text)) notices →
  (∀ text, P (Ecall (Cout text)) = false) →
  Forall (λ e, P e = false) notices.
Proof. intros H HP. eapply Forall_impl; [done|]. by intros ? [? ->]. Qed.

(** ** Three runs *)

(** One argument, no [macro_path]: a UI session with the default macro
    folder; here the session never ends. *)
Example run_one_argument :
  cog conf_interactive = Some (Generated "macros" "out.root" UiStart) ∧
  trace session_never_ends (Generated "macros" "out.root" UiStart) false
    ["particleconversion"; "run42.root"] =
    [Ecall (Cout "Using command line parameters as out file: ");
     Ecall (Cout ("run42.root" +:+ G4endl));
     Enew RanecuEngine 0; Ecall (SetTheEngine 0); Enew G4RunManager 1;
     Enew PhysicsList 2; Ecall (SetUserInitialization 1 2);
     Enew DetectorConstruction 3; Ecall (SetUserInitialization 1 3);
     Enew (ActionInitialization 3 "run42.root") 4;
     Ecall (SetUserInitialization 1 4);
     Enew G4VisExecutive 5; Ecall (Initialize 5);
     Enew (G4UIExecutive 2 ["particleconversion"; "run42.root"]) 6;
     Ecall GetUIpointer;
     Ecall (ApplyCommand "/control/macroPath macros");
     Ecall (ApplyCommand "/control/execute vis.mac");
     Ecall (SessionStart 6)] ∧
  exit_status session_never_ends (Generated "macros" "out.root" UiStart)
    false ["particleconversion"; "run42.root"] = None.
Proof. repeat split; reflexivity. Qed.

(** Two arguments and a [macro_path]: the macro is run with the given
    macro folder, and [main] returns. *)
Example run_two_arguments :
  cog conf_batch =
    Some (Generated "macros" "out.root" (RunMacro "batch.mac")) ∧
  trace cooperative (Generated "macros" "out.root" (RunMacro "batch.mac"))
    true ["particleconversion"; "run7.root"; "/opt/macros"] =
    [Ecall (Cout "Using command line parameters as out file: ");
     Ecall (Cout ("run7.root and also for macro directory /opt/macros"
                  +:+ G4endl));
     Enew RanecuEngine 0; Ecall (SetTheEngine 0); Enew G4MTRunManager 1;
     Enew PhysicsList 2; Ecall (SetUserInitialization 1 2);
     Enew DetectorConstruction 3; Ecall (SetUserInitialization 1 3);
     Enew (ActionInitialization 3 "run7.root") 4;
     Ecall (SetUserInitialization 1 4);
     Enew G4VisExecutive 5; Ecall (Initialize 5);
     Ecall GetUIpointer;
     Ecall (ApplyCommand "/control/macroPath /opt/macros");
     Ecall (ApplyCommand "/control/execute batch.mac");
     Ecall (Delete 5); Ecall (Delete 1)] ∧
  exit_status cooperative
    (Generated "macros" "out.root" (RunMacro "batch.mac"))
    true ["particleconversion"; "run7.root"; "/opt/macros"] = Some 0%Z.
Proof. repeat split; reflexivity. Qed.

(** Three arguments: the defaults, and no notice. *)
Example run_three_arguments :
  trace cooperative (Generated "macros" "out.root" (RunMacro "batch.mac"))
    false ["particleconversion"; "a"; "b"; "c"] =
    [Enew RanecuEngine 0; Ecall (SetTheEngine 0); Enew G4RunManager 1;
     Enew PhysicsList 2; Ecall (SetUserInitialization 1 2);
     Enew DetectorConstruction 3; Ecall (SetUserInitialization 1 3);
     Enew (ActionInitialization 3 "out.root") 4;
     Ecall (SetUserInitialization 1 4);
     Enew G4VisExecutive 5; Ecall (Initialize 5);
     Ecall GetUIpointer;
     Ecall (ApplyCommand "/control/macroPath macros");
     Ecall (ApplyCommand "/control/execute batch.mac");
     Ecall (Delete 5); Ecall (Delete 1)].
Proof. reflexivity. Qed.

(** A configuration without [out_filename] generates nothing. *)
Example cog_KeyError :
  cog {[ "particleconversion" := {[ "macro_folder" := "macros" ]} ]} = None.
Proof. reflexivity. Qed.

(** ** Code generation *)

Lemma cog_Some conf g :
  cog conf = Some g →
  ∃ pc, conf !! "particleconversion" = Some pc ∧
    pc !! "macro_folder" = Some (gen_macroFolder g) ∧
    pc !! "out_filename" = Some (gen_outputfileName g) ∧
    gen_process g =
      match pc !! "macro_path" with
      | Some macro_path =>
          if decide (macro_path ≠ EmptyString) then RunMacro macro_path
          else UiStart
      | None => UiStart
      end.
Proof.
  unfold cog. intros H.
  destruct (conf !! "particleconversion") as [pc|] eqn:Hpc; [|done].
  simpl in H.
  destruct (pc !! "macro_folder") as [mf|] eqn:Hmf; [|done]. simpl in H.
  destruct (pc !! "out_filename") as [out|] eqn:Hout; [|done]. simpl in H.
  simplify_eq. by exists pc.
Qed.

(** ** The output file name and the macro folder *)

Lemma main_parameters_eq g program args :
  main_parameters g (program :: args) =
  match args with
  | [a] =>
      do (Cout "Using command line parameters as out file: ");;
      do (Cout (a +:+ G4endl));;
      mret (a, gen_macroFolder g)
  | [a; d] =>
      do (Cout "Using command line parameters as out file: ");;
      do (Cout (a +:+ " and also for macro directory " +:+ d +:+ G4endl));;
      mret (a, d)
  | _ => mret (gen_outputfileName g, gen_macroFolder g)
  end.
Proof.
  destruct args as [|a [|d [|x l]]]; try reflexivity.
  unfold main_parameters.
  destruct (Z.eqb_spec (Z.of_nat (length (program :: a :: d :: x :: l))) 2)
    as [H|_]; [simpl in H; lia|].
  destruct (Z.eqb_spec (Z.of_nat (length (program :: a :: d :: x :: l))) 3)
    as [H|_]; [simpl in H; lia|].
  done.
Qed.

(** C1.  [gen_outputfileName g] and [gen_macroFolder g] are the values of
    the literals generated at lines 30 and 43: the build-time defaults.
    Called with the arguments [args] after the program name, lines 27-45
    give a pair (output file name, macro folder), the same whatever the
    environment, and it is: with one argument, that argument and the
    default macro folder; with two arguments, the first and the second;
    with no argument or more than two, the default output file name and
    the default macro folder. *)
Theorem main_parameters_resolved g program args :
  ∃ outputfileName macroFolder notices,
    run cooperative (main_parameters g (program :: args)) start =
      (Returned (outputfileName, macroFolder), World notices 0) ∧
    (∀ returns w p,
       (run returns (main_parameters g (program :: args)) w).1 = Returned p →
       p = (outputfileName, macroFolder)) ∧
    (∀ a, args = [a] →
       outputfileName = a ∧ macroFolder = gen_macroFolder g) ∧
    (∀ a d, args = [a; d] → outputfileName = a ∧ macroFolder = d) ∧
    (length args = 0 ∨ 2 < length args →
       outputfileName = gen_outputfileName g ∧
       macroFolder = gen_macroFolder g).
Proof.
  assert (∀ returns w p (m : prog (string * string)) q w',
    run cooperative m w = (Returned q, w') →
    (run returns m w).1 = Returned p → p = q) as Huniq.
  { intros returns w p m q w' Hq Hp.
    destruct (run returns m w) as [r w''] eqn:E; simpl in Hp; subst r.
    apply run_returned in E. congruence. }
  rewrite main_parameters_eq.
  destruct args as [|a [|d [|x l]]];
    (eexists _, _, _; split; [reflexivity|]; split;
     [intros returns w p Hp; eapply (Huniq returns w); [|exact Hp];
      reflexivity|]);
    repeat split; intros; simplify_eq/=; try done;
    repeat match goal with H : _ ∨ _ |- _ => destruct H end; lia.
Qed.

Lemma main_parameters_resolved_witness :
  let g := Generated "macros" "out.root" UiStart in
  ∃ outputfileName macroFolder notices,
    run cooperative
      (main_parameters g ["particleconversion"; "run42.root"]) start =
      (Returned (outputfileName, macroFolder), World notices 0) ∧
    (run session_never_ends
       (main_parameters g ["particleconversion"; "run42.root"]) start).1 =
      Returned (outputfileName, macroFolder) ∧
    outputfileName = "run42.root" ∧ macroFolder = "macros".
Proof.
  intros g.
  destruct (main_parameters_resolved g "particleconversion" ["run42.root"])
    as (outputfileName & macroFolder & notices & Hrun & Huniq & Hone & _).
  exists outputfileName, macroFolder, notices.
  split; [exact Hrun|].
  split; [|exact (Hone "run42.root" eq_refl)].
  rewrite <- (Huniq session_never_ends start ("run42.root", "macros"));
    reflexivity.
Defined.

(** ** The order of the run *)

Lemma main_process_session p argv macroFolder session n :
  run cooperative (main_process p argv macroFolder) (World [] 6) =
    (Returned (), World session n) →
  (p = UiStart ∧
   session = [Enew (G4UIExecutive (Z.of_nat (length argv)) argv) 6;
              Ecall GetUIpointer;
              Ecall (ApplyCommand ("/control/macroPath " +:+ macroFolder));
              Ecall (ApplyCommand "/control/execute vis.mac");
              Ecall (SessionStart 6); Ecall (Delete 6)]) ∨
  (∃ macro_path, p = RunMacro macro_path ∧
   session = [Ecall GetUIpointer;
              Ecall (ApplyCommand ("/control/macroPath " +:+ macroFolder));
              Ecall (ApplyCommand ("/control/execute " +:+ macro_path))]).
Proof. destruct p; simpl; intros; simplify_eq; eauto. Qed.

(** Closes [Forall (λ e, P e = false) l] for a list made of the notices,
    explicit lists and lists known to satisfy it. *)
Ltac no_such_event :=
  repeat first
    [ assumption
    | apply Forall_app; split
    | apply Forall_cons; split;
        [first [ done
               | by rewrite bool_decide_eq_false
               | by match goal with
                    | |- context [if ?b then _ else _] => destruct b
                    end ]|]
    | apply Forall_nil_2
    | apply notices_no_action;
        [done | intros; first [done | by rewrite bool_decide_eq_false]] ].

(** C3.  The calls of a run are an initial part of the calls made when
    every call returns, and those are: some calls, among them the creation
    of the run manager (object 1); then a [PhysicsList] is created and
    registered with the run manager, a [DetectorConstruction] is created
    and registered, an [ActionInitialization] is created from that detector
    construction and the resolved output file name, and registered; then
    the remaining calls.  No other step of registration is made. *)
Theorem registration_order returns g (G4MULTITHREADED : bool) argv :
  ∃ before outputfileName macroFolder after,
    (run cooperative (main_parameters g argv) start).1 =
      Returned (outputfileName, macroFolder) ∧
    Enew (if G4MULTITHREADED then G4MTRunManager else G4RunManager) 1
      ∈ before ∧
    Forall (λ e, registration_step e = false) (before ++ after) ∧
    trace cooperative g G4MULTITHREADED argv =
      before ++
      [Enew PhysicsList 2; Ecall (SetUserInitialization 1 2);
       Enew DetectorConstruction 3; Ecall (SetUserInitialization 1 3);
       Enew (ActionInitialization 3 outputfileName) 4;
       Ecall (SetUserInitialization 1 4)] ++ after ∧
    trace returns g G4MULTITHREADED argv
      `prefix_of` trace cooperative g G4MULTITHREADED argv.
Proof.
  destruct (main_cooperative g G4MULTITHREADED argv)
    as (notices & outputfileName & macroFolder & session & n
        & Hn & Hp & Hs & Hm).
  exists (notices ++
          [Enew RanecuEngine 0; Ecall (SetTheEngine 0);
           Enew (if G4MULTITHREADED then G4MTRunManager else G4RunManager) 1]),
    outputfileName, macroFolder,
    ([Enew G4VisExecutive 5; Ecall (Initialize 5)] ++ session ++
     [Ecall (Delete 5); Ecall (Delete 1)]).
  split; [by rewrite Hp|].
  split; [set_solver|].
  split.
  { apply main_process_session in Hs as [[_ ->] | (mp & _ & ->)];
      no_such_event. }
  split; [|apply trace_cooperative].
  unfold trace. rewrite Hm. simpl. by rewrite <- !app_assoc.
Qed.

(** C4.  In a run that reaches an action of the execution mode, the three
    registrations with the run manager (object 1) came before it, and every
    call before it had returned. *)
Theorem registration_before_execution
    returns g (G4MULTITHREADED : bool) argv before e after :
  trace returns g G4MULTITHREADED argv = before ++ e :: after →
  execution_action e = true →
  ∃ l1 outputfileName l2,
    Enew (if G4MULTITHREADED then G4MTRunManager else G4RunManager) 1 ∈ l1 ∧
    before =
      l1 ++
      [Enew PhysicsList 2; Ecall (SetUserInitialization 1 2);
       Enew DetectorConstruction 3; Ecall (SetUserInitialization 1 3);
       Enew (ActionInitialization 3 outputfileName) 4;
       Ecall (SetUserInitialization 1 4)] ++ l2 ∧
    ∀ i x, before !! i = Some x → returns i x = true.
Proof.
  intros Htr He.
  destruct (main_cooperative g G4MULTITHREADED argv)
    as (notices & outputfileName & macroFolder & session & n
        & Hn & Hp & Hs & Hm).
  pose proof (trace_cooperative returns g G4MULTITHREADED argv) as Hpre.
  rewrite Htr in Hpre. unfold trace in Hpre. rewrite Hm in Hpre.
  cbn [snd log] in Hpre. rewrite app_assoc in Hpre.
  eapply (prefix_reaches execution_action) in Hpre as [l ->];
    [|no_such_event|done].
  exists (notices ++
          [Enew RanecuEngine 0; Ecall (SetTheEngine 0);
           Enew (if G4MULTITHREADED then G4MTRunManager else G4RunManager) 1]),
    outputfileName, ([Enew G4VisExecutive 5; Ecall (Initialize 5)] ++ l).
  split; [set_solver|].
  split; [by rewrite <- !app_assoc|].
  by eapply trace_returned.
Qed.

Lemma registration_before_execution_witness :
  let g := Generated "macros" "out.root" (RunMacro "batch.mac") in
  let before :=
    [Enew RanecuEngine 0; Ecall (SetTheEngine 0); Enew G4RunManager 1;
     Enew PhysicsList 2; Ecall (SetUserInitialization 1 2);
     Enew DetectorConstruction 3; Ecall (SetUserInitialization 1 3);
     Enew (ActionInitialization 3 "out.root") 4;
     Ecall (SetUserInitialization 1 4);
     Enew G4VisExecutive 5; Ecall (Initialize 5)] in
  let after :=
    [Ecall (ApplyCommand "/control/macroPath macros");
     Ecall (ApplyCommand "/control/execute batch.mac");
     Ecall (Delete 5); Ecall (Delete 1)] in
  trace cooperative g false ["particleconversion"] =
    before ++ Ecall GetUIpointer :: after ∧
  execution_action (Ecall GetUIpointer) = true ∧
  ∃ l1 outputfileName l2,
    Enew G4RunManager 1 ∈ l1 ∧
    before =
      l1 ++
      [Enew PhysicsList 2; Ecall (SetUserInitialization 1 2);
       Enew DetectorConstruction 3; Ecall (SetUserInitialization 1 3);
       Enew (ActionInitialization 3 outputfileName) 4;
       Ecall (SetUserInitialization 1 4)] ++ l2 ∧
    ∀ i x, before !! i = Some x → cooperative i x = true.
Proof.
  intros g before after.
  split; [reflexivity|]. split; [reflexivity|].
  apply (registration_before_execution cooperative g false
           ["particleconversion"] before (Ecall GetUIpointer) after);
    reflexivity.
Defined.

(** C7.  When every call returns, a [G4VisExecutive] is created and
    initialized, whatever was generated, and no action of the execution
    mode comes before.  In any run that reaches a command given to the
    command interpreter, the creation and the initialization came before
    it, and every call before it had returned. *)
Theorem visualization_before_macro returns g G4MULTITHREADED argv :
  (∃ l1 l2,
     Forall (λ e, execution_action e = false) l1 ∧
     trace cooperative g G4MULTITHREADED argv =
       l1 ++ [Enew G4VisExecutive 5; Ecall (Initialize 5)] ++ l2) ∧
  (∀ before command after,
     trace returns g G4MULTITHREADED argv =
       before ++ Ecall (ApplyCommand command) :: after →
     (∃ l1 l2,
        before = l1 ++ [Enew G4VisExecutive 5; Ecall (Initialize 5)] ++ l2) ∧
     ∀ i x, before !! i = Some x → returns i x = true).
Proof.
  destruct (main_cooperative g G4MULTITHREADED argv)
    as (notices & outputfileName & macroFolder & session & n
        & Hn & Hp & Hs & Hm).
  set (assembly :=
    [Enew RanecuEngine 0; Ecall (SetTheEngine 0);
     Enew (if G4MULTITHREADED then G4MTRunManager else G4RunManager) 1;
     Enew PhysicsList 2; Ecall (SetUserInitialization 1 2);
     Enew DetectorConstruction 3; Ecall (SetUserInitialization 1 3);
     Enew (ActionInitialization 3 outputfileName) 4;
     Ecall (SetUserInitialization 1 4)]).
  split.
  - exists (notices ++ assembly),
      (session ++ [Ecall (Delete 5); Ecall (Delete 1)]).
    split; [subst assembly; no_such_event|].
    unfold trace. rewrite Hm. cbn [snd log]. by rewrite <- !app_assoc.
  - intros before command after Htr.
    split; [|by eapply trace_returned].
    pose proof (trace_cooperative returns g G4MULTITHREADED argv) as Hpre.
    rewrite Htr in Hpre. unfold trace in Hpre. rewrite Hm in Hpre.
    cbn [snd log] in Hpre. rewrite app_assoc in Hpre.
    eapply (prefix_reaches execution_action) in Hpre as [l ->];
      [|no_such_event|done].
    exists (notices ++ assembly), l. by rewrite <- !app_assoc.
Qed.

Lemma visualization_before_macro_witness :
  let g := Generated "macros" "out.root" (RunMacro "batch.mac") in
  let before :=
    [Enew RanecuEngine 0; Ecall (SetTheEngine 0); Enew G4RunManager 1;
     Enew PhysicsList 2; Ecall (SetUserInitialization 1 2);
     Enew DetectorConstruction 3; Ecall (SetUserInitialization 1 3);
     Enew (ActionInitialization 3 "out.root") 4;
     Ecall (SetUserInitialization 1 4);
     Enew G4VisExecutive 5; Ecall (Initialize 5);
     Ecall GetUIpointer;
     Ecall (ApplyCommand "/control/macroPath macros")] in
  let after := [Ecall (Delete 5); Ecall (Delete 1)] in
  trace cooperative g false ["particleconversion"] =
    before ++ Ecall (ApplyCommand "/control/execute batch.mac") :: after ∧
  (∃ l1 l2,
     before = l1 ++ [Enew G4VisExecutive 5; Ecall (Initialize 5)] ++ l2) ∧
  ∀ i x, before !! i = Some x → cooperative i x = true.
Proof.
  intros g before after.
  split; [reflexivity|].
  apply (proj2 (visualization_before_macro cooperative g false
                  ["particleconversion"])
           before "/control/execute batch.mac" after).
  reflexivity.
Defined.

(** C8.  When every call returns, the run ends with the release of the
    visualization manager (object 5) and then of the run manager (object
    1), after all the calls of the generated block, whichever it is; neither
    is released earlier.  In any run that releases the run manager, the
    release of the visualization manager is the call just before, it
    returned, and nothing follows. *)
Theorem teardown_order returns g (G4MULTITHREADED : bool) argv :
  (∃ l macroFolder,
     Enew (if G4MULTITHREADED then G4MTRunManager else G4RunManager) 1 ∈ l ∧
     Enew G4VisExecutive 5 ∈ l ∧
     Forall (λ e, e ≠ Ecall (Delete 5) ∧ e ≠ Ecall (Delete 1))
       (l ++ calls (main_process (gen_process g) argv macroFolder) 6) ∧
     trace cooperative g G4MULTITHREADED argv =
       l ++ calls (main_process (gen_process g) argv macroFolder) 6 ++
       [Ecall (Delete 5); Ecall (Delete 1)]) ∧
  (∀ before after,
     trace returns g G4MULTITHREADED argv =
       before ++ Ecall (Delete 1) :: after →
     ∃ l, before = l ++ [Ecall (Delete 5)] ∧ after = [] ∧
       returns (length l) (Ecall (Delete 5)) = true).
Proof.
  destruct (main_cooperative g G4MULTITHREADED argv)
    as (notices & outputfileName & macroFolder & session & n
        & Hn & Hp & Hs & Hm).
  set (assembly :=
    [Enew RanecuEngine 0; Ecall (SetTheEngine 0);
     Enew (if G4MULTITHREADED then G4MTRunManager else G4RunManager) 1;
     Enew PhysicsList 2; Ecall (SetUserInitialization 1 2);
     Enew DetectorConstruction 3; Ecall (SetUserInitialization 1 3);
     Enew (ActionInitialization 3 outputfileName) 4;
     Ecall (SetUserInitialization 1 4);
     Enew G4VisExecutive 5; Ecall (Initialize 5)]) in *.
  assert (Forall (λ e, bool_decide (e = Ecall (Delete 5)) = false)
            (notices ++ assembly ++ session)) as H5.
  { subst assembly.
    apply main_process_session in Hs as [[_ ->] | (mp & _ & ->)];
      no_such_event. }
  assert (Forall (λ e, bool_decide (e = Ecall (Delete 1)) = false)
            ((notices ++ assembly ++ session) ++ [Ecall (Delete 5)])) as H1.
  { subst assembly.
    apply main_process_session in Hs as [[_ ->] | (mp & _ & ->)];
      no_such_event. }
  split.
  - exists (notices ++ assembly), macroFolder.
    unfold calls. rewrite Hs. cbn [snd log].
    split; [subst assembly; set_solver|].
    split; [subst assembly; set_solver|].
    split.
    + rewrite <- app_assoc. apply Forall_app in H1 as [H1 _].
      eapply Forall_impl; [apply Forall_and; split; [exact H5|exact H1]|].
      intros e [? ?]. by rewrite <- !bool_decide_eq_false.
    + unfold trace. rewrite Hm. cbn [snd log]. by rewrite <- !app_assoc.
  - intros before after Htr.
    pose proof (trace_cooperative returns g G4MULTITHREADED argv) as Hpre.
    rewrite Htr in Hpre. unfold trace in Hpre. rewrite Hm in Hpre.
    cbn [snd log] in Hpre.
    replace (notices ++ assembly ++ session ++
             [Ecall (Delete 5); Ecall (Delete 1)])
      with (((notices ++ assembly ++ session) ++ [Ecall (Delete 5)]) ++
            [Ecall (Delete 1)]) in Hpre by (by rewrite <- !app_assoc).
    pose proof (prefix_length _ _ Hpre) as Hlen.
    eapply (prefix_reaches (λ e, bool_decide (e = Ecall (Delete 1))))
      in Hpre as [l ->]; [|done|by apply bool_decide_eq_true].
    rewrite !length_app in Hlen. simpl in Hlen.
    destruct l; [|simpl in Hlen; lia].
    destruct after; [|simpl in Hlen; lia].
    rewrite app_nil_r in *.
    exists (notices ++ assembly ++ session). split; [done|]. split; [done|].
    eapply trace_returned; [exact Htr|].
    by rewrite lookup_app_r, Nat.sub_diag.
Qed.

Lemma teardown_order_witness :
  let g := Generated "macros" "out.root" UiStart in
  let before :=
    [Enew RanecuEngine 0; Ecall (SetTheEngine 0); Enew G4MTRunManager 1;
     Enew PhysicsList 2; Ecall (SetUserInitialization 1 2);
     Enew DetectorConstruction 3; Ecall (SetUserInitialization 1 3);
     Enew (ActionInitialization 3 "out.root") 4;
     Ecall (SetUserInitialization 1 4);
     Enew G4VisExecutive 5; Ecall (Initialize 5);
     Enew (G4UIExecutive 1 ["particleconversion"]) 6;
     Ecall GetUIpointer;
     Ecall (ApplyCommand "/control/macroPath macros");
     Ecall (ApplyCommand "/control/execute vis.mac");
     Ecall (SessionStart 6); Ecall (Delete 6); Ecall (Delete 5)] in
  trace cooperative g true ["particleconversion"] =
    before ++ Ecall (Delete 1) :: [] ∧
  ∃ l, before = l ++ [Ecall (Delete 5)] ∧ @nil event = [] ∧
    cooperative (length l) (Ecall (Delete 5)) = true.
Proof.
  intros g before.
  split; [reflexivity|].
  apply (proj2 (teardown_order cooperative g true ["particleconversion"])
           before []).
  reflexivity.
Defined.

(** ** The two generated blocks *)

Lemma trace_UiStart g (G4MULTITHREADED : bool) argv :
  gen_process g = UiStart →
  ∃ before outputfileName macroFolder,
    (run cooperative (main_parameters g argv) start).1 =
      Returned (outputfileName, macroFolder) ∧
    Forall (λ e, execution_action e = false) before ∧
    trace cooperative g G4MULTITHREADED argv =
      before ++
      [Enew (G4UIExecutive (Z.of_nat (length argv)) argv) 6;
       Ecall GetUIpointer;
       Ecall (ApplyCommand ("/control/macroPath " +:+ macroFolder));
       Ecall (ApplyCommand "/control/execute vis.mac");
       Ecall (SessionStart 6); Ecall (Delete 6);
       Ecall (Delete 5); Ecall (Delete 1)].
Proof.
  intros Hg.
  destruct (main_cooperative g G4MULTITHREADED argv)
    as (notices & outputfileName & macroFolder & session & n
        & Hn & Hp & Hs & Hm).
  rewrite Hg in Hs. simpl in Hs. simplify_eq.
  exists
    (notices ++
     [Enew RanecuEngine 0; Ecall (SetTheEngine 0);
      Enew (if G4MULTITHREADED then G4MTRunManager else G4RunManager) 1;
      Enew PhysicsList 2; Ecall (SetUserInitialization 1 2);
      Enew DetectorConstruction 3; Ecall (SetUserInitialization 1 3);
      Enew (ActionInitialization 3 outputfileName) 4;
      Ecall (SetUserInitialization 1 4);
      Enew G4VisExecutive 5; Ecall (Initialize 5)]),
    outputfileName, macroFolder.
  split; [by rewrite Hp|].
  split; [no_such_event|].
  unfold trace. rewrite Hm. cbn [snd log]. by rewrite <- !app_assoc.
Qed.

Lemma trace_RunMacro g (G4MULTITHREADED : bool) argv macro_path :
  gen_process g = RunMacro macro_path →
  ∃ before outputfileName macroFolder,
    (run cooperative (main_parameters g argv) start).1 =
      Returned (outputfileName, macroFolder) ∧
    Forall (λ e, execution_action e = false) before ∧
    Forall (λ e, ui_session_step e = false) before ∧
    trace cooperative g G4MULTITHREADED argv =
      before ++
      [Ecall GetUIpointer;
       Ecall (ApplyCommand ("/control/macroPath " +:+ macroFolder));
       Ecall (ApplyCommand ("/control/execute " +:+ macro_path));
       Ecall (Delete 5); Ecall (Delete 1)].
Proof.
  intros Hg.
  destruct (main_cooperative g G4MULTITHREADED argv)
    as (notices & outputfileName & macroFolder & session & n
        & Hn & Hp & Hs & Hm).
  rewrite Hg in Hs. simpl in Hs. simplify_eq.
  exists
    (notices ++
     [Enew RanecuEngine 0; Ecall (SetTheEngine 0);
      Enew (if G4MULTITHREADED then G4MTRunManager else G4RunManager) 1;
      Enew PhysicsList 2; Ecall (SetUserInitialization 1 2);
      Enew DetectorConstruction 3; Ecall (SetUserInitialization 1 3);
      Enew (ActionInitialization 3 outputfileName) 4;
      Ecall (SetUserInitialization 1 4);
      Enew G4VisExecutive 5; Ecall (Initialize 5)]),
    outputfileName, macroFolder.
  split; [by rewrite Hp|].
  split; [no_such_event|]. split; [no_such_event|].
  unfold trace. rewrite Hm. cbn [snd log]. by rewrite <- !app_assoc.
Qed.

(** C5.  When the generated block is that of [ui_start], the calls made
    when every call returns are: calls that are no action of the execution
    mode; then a [G4UIExecutive] is created from [argc] and [argv], the
    command interpreter is given ["/control/macroPath "] followed by the
    resolved macro folder, then ["/control/execute vis.mac"], the session
    is started, and once it has returned the session object and the two
    managers are released.  The calls of any run are an initial part of
    these, and while [SessionStart] has not returned, no call follows it. *)
Theorem interactive_session returns g G4MULTITHREADED argv :
  gen_process g = UiStart →
  ∃ before outputfileName macroFolder,
    (run cooperative (main_parameters g argv) start).1 =
      Returned (outputfileName, macroFolder) ∧
    Forall (λ e, execution_action e = false) before ∧
    trace cooperative g G4MULTITHREADED argv =
      before ++
      [Enew (G4UIExecutive (Z.of_nat (length argv)) argv) 6;
       Ecall GetUIpointer;
       Ecall (ApplyCommand ("/control/macroPath " +:+ macroFolder));
       Ecall (ApplyCommand "/control/execute vis.mac");
       Ecall (SessionStart 6); Ecall (Delete 6);
       Ecall (Delete 5); Ecall (Delete 1)] ∧
    trace returns g G4MULTITHREADED argv
      `prefix_of` trace cooperative g G4MULTITHREADED argv ∧
    ∀ i, trace returns g G4MULTITHREADED argv !! i
           = Some (Ecall (SessionStart 6)) →
         returns i (Ecall (SessionStart 6)) = false →
         length (trace returns g G4MULTITHREADED argv) = S i.
Proof.
  intros Hg.
  destruct (trace_UiStart g G4MULTITHREADED argv Hg)
    as (before & outputfileName & macroFolder & Hp & Hb & Htr).
  exists before, outputfileName, macroFolder.
  repeat split; try done; [apply trace_cooperative|].
  intros i Hi Hr. eapply run_blocked; [exact Hi|simpl; lia|exact Hr].
Qed.

Lemma interactive_session_witness :
  let g := Generated "macros" "out.root" UiStart in
  let argv := ["particleconversion"; "run42.root"] in
  gen_process g = UiStart ∧
  ∃ before outputfileName macroFolder,
    (run cooperative (main_parameters g argv) start).1 =
      Returned (outputfileName, macroFolder) ∧
    Forall (λ e, execution_action e = false) before ∧
    trace cooperative g false argv =
      before ++
      [Enew (G4UIExecutive (Z.of_nat (length argv)) argv) 6;
       Ecall GetUIpointer;
       Ecall (ApplyCommand ("/control/macroPath " +:+ macroFolder));
       Ecall (ApplyCommand "/control/execute vis.mac");
       Ecall (SessionStart 6); Ecall (Delete 6);
       Ecall (Delete 5); Ecall (Delete 1)] ∧
    trace session_never_ends g false argv
      `prefix_of` trace cooperative g false argv ∧
    ∀ i, trace session_never_ends g false argv !! i
           = Some (Ecall (SessionStart 6)) →
         session_never_ends i (Ecall (SessionStart 6)) = false →
         length (trace session_never_ends g false argv) = S i.
Proof.
  intros g argv. split; [reflexivity|].
  apply (interactive_session session_never_ends g false argv).
  reflexivity.
Defined.



(** ** Which block is generated *)

(** C2 as stated, that the presence of [macro_path] alone decides the mode,
    fails where [macro_path] is present and empty: the configuration has the
    entry, and the run opens a UI session and executes [vis.mac]. *)
Lemma dispatch_by_presence_counterexample :
  let pc : gmap string string :=
    {[ "macro_folder" := "macros"; "out_filename" := "out.root";
       "macro_path" := EmptyString ]} in
  let g := Generated "macros" "out.root" UiStart in
  conf_empty_macro_path !! "particleconversion" = Some pc ∧
  is_Some (pc !! "macro_path") ∧
  cog conf_empty_macro_path = Some g ∧
  trace cooperative g false ["particleconversion"] =
    [Enew RanecuEngine 0; Ecall (SetTheEngine 0); Enew G4RunManager 1;
     Enew PhysicsList 2; Ecall (SetUserInitialization 1 2);
     Enew DetectorConstruction 3; Ecall (SetUserInitialization 1 3);
     Enew (ActionInitialization 3 "out.root") 4;
     Ecall (SetUserInitialization 1 4);
     Enew G4VisExecutive 5; Ecall (Initialize 5);
     Enew (G4UIExecutive 1 ["particleconversion"]) 6;
     Ecall GetUIpointer;
     Ecall (ApplyCommand "/control/macroPath macros");
     Ecall (ApplyCommand "/control/execute vis.mac");
     Ecall (SessionStart 6); Ecall (Delete 6);
     Ecall (Delete 5); Ecall (Delete 1)].
Proof.
  intros pc g. split; [reflexivity|]. split; [by eexists|].
  split; reflexivity.
Qed.

(** C2, amended.  For a program built from [conf], the calls made when
    every call returns are: calls that are no action of the execution mode,
    then the calls of exactly one of the two blocks, then the two releases.
    When [macro_path] is configured and not the empty string, they are the
    three calls that run a macro, and no run makes a step of a UI session.
    When [macro_path] is not configured or is the empty string, they are
    the six calls of [ui_start], whose only macro is [vis.mac].  The calls
    of any run are an initial part of these. *)
Theorem dispatch_exclusive returns conf pc g G4MULTITHREADED argv :
  conf !! "particleconversion" = Some pc →
  cog conf = Some g →
  ∃ before macroFolder,
    Forall (λ e, execution_action e = false) before ∧
    trace returns g G4MULTITHREADED argv
      `prefix_of` trace cooperative g G4MULTITHREADED argv ∧
    ((∃ macro_path macro,
        pc !! "macro_path" = Some macro_path ∧ macro_path ≠ EmptyString ∧
        trace cooperative g G4MULTITHREADED argv =
          before ++
          [Ecall GetUIpointer;
           Ecall (ApplyCommand ("/control/macroPath " +:+ macroFolder));
           Ecall (ApplyCommand ("/control/execute " +:+ macro))] ++
          [Ecall (Delete 5); Ecall (Delete 1)] ∧
        Forall (λ e, ui_session_step e = false)
          (trace returns g G4MULTITHREADED argv)) ∨
     ((pc !! "macro_path" = None ∨ pc !! "macro_path" = Some EmptyString) ∧
      trace cooperative g G4MULTITHREADED argv =
        before ++
        [Enew (G4UIExecutive (Z.of_nat (length argv)) argv) 6;
         Ecall GetUIpointer;
         Ecall (ApplyCommand ("/control/macroPath " +:+ macroFolder));
         Ecall (ApplyCommand "/control/execute vis.mac");
         Ecall (SessionStart 6); Ecall (Delete 6)] ++
        [Ecall (Delete 5); Ecall (Delete 1)])).
Proof.
  intros Hpc (pc' & Hpc' & _ & _ & Hproc)%cog_Some.
  assert (pc' = pc) as -> by congruence.
  destruct (gen_process g) as [macro|] eqn:Hg.
  - destruct (trace_RunMacro g G4MULTITHREADED argv macro Hg)
      as (before & outputfileName & macroFolder & _ & Hb & Hu & Htr).
    exists before, macroFolder.
    split; [done|]. split; [apply trace_cooperative|].
    left. exists macro, macro.
    split; [|split; [|split; [exact Htr|]]].
    + destruct (pc !! "macro_path") as [mp|]; [|done].
      case_decide; by simplify_eq.
    + destruct (pc !! "macro_path") as [mp|]; [|done].
      case_decide; by simplify_eq.
    + destruct (trace_cooperative returns g G4MULTITHREADED argv) as [k Hk].
      assert (Forall (λ e, ui_session_step e = false)
                (trace cooperative g G4MULTITHREADED argv)) as Hall.
      { rewrite Htr. no_such_event. }
      rewrite Hk in Hall. by apply Forall_app in Hall as [? _].
  - destruct (trace_UiStart g G4MULTITHREADED argv Hg)
      as (before & outputfileName & macroFolder & _ & Hb & Htr).
    exists before, macroFolder.
    split; [done|]. split; [apply trace_cooperative|].
    right. split; [|exact Htr].
    destruct (pc !! "macro_path") as [mp|]; [|by left].
    case_decide as Hmp; [done|]. right. f_equal.
    by destruct (decide (mp = EmptyString)).
Qed.

Lemma dispatch_exclusive_witness :
  (conf_empty_macro_path !! "particleconversion" =
     Some {[ "macro_folder" := "macros"; "out_filename" := "out.root";
             "macro_path" := EmptyString ]} ∧
   cog conf_empty_macro_path = Some (Generated "macros" "out.root" UiStart) ∧
   ∃ before macroFolder,
     trace cooperative (Generated "macros" "out.root" UiStart) false
       ["particleconversion"] =
       before ++
       [Enew (G4UIExecutive 1 ["particleconversion"]) 6;
        Ecall GetUIpointer;
        Ecall (ApplyCommand ("/control/macroPath " +:+ macroFolder));
        Ecall (ApplyCommand "/control/execute vis.mac");
        Ecall (SessionStart 6); Ecall (Delete 6)] ++
       [Ecall (Delete 5); Ecall (Delete 1)]) ∧
  (conf_batch !! "particleconversion" =
     Some {[ "macro_folder" := "macros"; "out_filename" := "out.root";
             "macro_path" := "batch.mac" ]} ∧
   cog conf_batch =
     Some (Generated "macros" "out.root" (RunMacro "batch.mac")) ∧
   ∃ before macroFolder macro,
     trace cooperative
       (Generated "macros" "out.root" (RunMacro "batch.mac")) false
       ["particleconversion"] =
       before ++
       [Ecall GetUIpointer;
        Ecall (ApplyCommand ("/control/macroPath " +:+ macroFolder));
        Ecall (ApplyCommand ("/control/execute " +:+ macro))] ++
       [Ecall (Delete 5); Ecall (Delete 1)] ∧
     Forall (λ e, ui_session_step e = false)
       (trace session_never_ends
          (Generated "macros" "out.root" (RunMacro "batch.mac")) false
          ["particleconversion"])).
Proof.
  split.
  - split; [reflexivity|]. split; [reflexivity|].
    destruct (dispatch_exclusive cooperative conf_empty_macro_path
                {[ "macro_folder" := "macros"; "out_filename" := "out.root";
                   "macro_path" := EmptyString ]}
                (Generated "macros" "out.root" UiStart) false
                ["particleconversion"])
      as (before & macroFolder & _ & _
          & [(mp & macro & Hmp & Hne & _) | [_ Htr]]);
      [reflexivity | reflexivity | |].
    + vm_compute in Hmp. injection Hmp as <-. by destruct Hne.
    + by exists before, macroFolder.
  - split; [reflexivity|]. split; [reflexivity|].
    destruct (dispatch_exclusive session_never_ends conf_batch
                {[ "macro_folder" := "macros"; "out_filename" := "out.root";
                   "macro_path" := "batch.mac" ]}
                (Generated "macros" "out.root" (RunMacro "batch.mac")) false
                ["particleconversion"])
      as (before & macroFolder & _ & _
          & [(mp & macro & _ & _ & Htr & Hno) | [Hmp _]]);
      [reflexivity | reflexivity | |].
    + by exists before, macroFolder, macro.
    + vm_compute in Hmp. by destruct Hmp.
Defined.

(** C9.  When [macro_path] is configured as the empty string, what is
    generated is what is generated without the entry: the block of
    [ui_start]; the run opens a UI session. *)
Theorem empty_macro_path_interactive conf pc g G4MULTITHREADED argv :
  conf !! "particleconversion" = Some pc →
  pc !! "macro_path" = Some EmptyString →
  cog conf = Some g →
  gen_process g = UiStart ∧
  cog (<["particleconversion" := delete "macro_path" pc]> conf) = Some g ∧
  ∃ before macroFolder,
    Forall (λ e, execution_action e = false) before ∧
    trace cooperative g G4MULTITHREADED argv =
      before ++
      [Enew (G4UIExecutive (Z.of_nat (length argv)) argv) 6;
       Ecall GetUIpointer;
       Ecall (ApplyCommand ("/control/macroPath " +:+ macroFolder));
       Ecall (ApplyCommand "/control/execute vis.mac");
       Ecall (SessionStart 6); Ecall (Delete 6);
       Ecall (Delete 5); Ecall (Delete 1)].
Proof.
  intros Hpc Hmp (pc' & Hpc' & Hmf & Hout & Hproc)%cog_Some.
  assert (pc' = pc) as -> by congruence.
  rewrite Hmp in Hproc. simpl in Hproc.
  split; [done|]. split.
  - unfold cog. rewrite lookup_insert_eq. simpl.
    rewrite (lookup_delete_ne pc "macro_path" "macro_folder") by done.
    rewrite (lookup_delete_ne pc "macro_path" "out_filename") by done.
    rewrite Hmf, Hout. simpl.
    rewrite lookup_delete_eq. destruct g; simpl in *. by subst.
  - destruct (trace_UiStart g G4MULTITHREADED argv Hproc)
      as (before & outputfileName & macroFolder & _ & Hb & Htr).
    by exists before, macroFolder.
Qed.

Lemma empty_macro_path_interactive_witness :
  let pc : gmap string string :=
    {[ "macro_folder" := "macros"; "out_filename" := "out.root";
       "macro_path" := EmptyString ]} in
  let g := Generated "macros" "out.root" UiStart in
  let argv := ["particleconversion"] in
  conf_empty_macro_path !! "particleconversion" = Some pc ∧
  pc !! "macro_path" = Some EmptyString ∧
  cog conf_empty_macro_path = Some g ∧
  gen_process g = UiStart ∧
  cog (<["particleconversion" := delete "macro_path" pc]>
         conf_empty_macro_path) = Some g ∧
  ∃ before macroFolder,
    Forall (λ e, execution_action e = false) before ∧
    trace cooperative g true argv =
      before ++
      [Enew (G4UIExecutive (Z.of_nat (length argv)) argv) 6;
       Ecall GetUIpointer;
       Ecall (ApplyCommand ("/control/macroPath " +:+ macroFolder));
       Ecall (ApplyCommand "/control/execute vis.mac");
       Ecall (SessionStart 6); Ecall (Delete 6);
       Ecall (Delete 5); Ecall (Delete 1)].
Proof.
  intros pc g argv.
  split; [reflexivity|]. split; [reflexivity|]. split; [reflexivity|].
  apply (empty_macro_path_interactive conf_empty_macro_path pc g true argv);
    reflexivity.
Defined.

(** ** The exit status *)

(** [main] returns nothing but 0. *)
Lemma exit_status_Some returns g G4MULTITHREADED argv status :
  exit_status returns g G4MULTITHREADED argv = Some status → status = 0%Z.
Proof.
  unfold exit_status.
  destruct (run returns (main g G4MULTITHREADED argv) start) as [r w] eqn:E.
  destruct r as [z|]; [|done]. simpl. intros [= ->].
  apply run_returned in E.
  destruct (main_cooperative g G4MULTITHREADED argv)
    as (? & ? & ? & ? & ? & _ & _ & _ & Hm).
  congruence.
Qed.

(** C10.  A run in which every call made returned ends with exit status 0,
    whatever was generated. *)
Theorem exit_status_zero returns g G4MULTITHREADED argv :
  (∀ i e, trace returns g G4MULTITHREADED argv !! i = Some e →
          returns i e = true) →
  exit_status returns g G4MULTITHREADED argv = Some 0%Z.
Proof.
  intros H. unfold exit_status.
  rewrite (run_all_returned returns (main g G4MULTITHREADED argv) start H).
  destruct (main_cooperative g G4MULTITHREADED argv)
    as (? & ? & ? & ? & ? & _ & _ & _ & Hm).
  by rewrite Hm.
Qed.

Lemma exit_status_zero_witness :
  let g := Generated "macros" "out.root" (RunMacro "batch.mac") in
  let argv := ["particleconversion"; "run7.root"; "/opt/macros"] in
  (∀ i e, trace session_never_ends g false argv !! i = Some e →
          session_never_ends i e = true) ∧
  exit_status session_never_ends g false argv = Some 0%Z.
Proof.
  intros g argv.
  assert (∀ i e, trace session_never_ends g false argv !! i = Some e →
                 session_never_ends i e = true) as H.
  { intros i e. vm_compute trace.
    do 18 (destruct i as [|i]; [intros [= <-]; reflexivity|]).
    intros [=]. }
  split; [exact H|].
  exact (exit_status_zero session_never_ends g false argv H).
Defined.

(** * Further properties of [cog] and [main] *)

(** ** Code generation *)

(** Code is generated exactly when the section [particleconversion] has
    the entries [macro_folder] and [out_filename]; in every other case a
    lookup raises [KeyError].  [macro_path] is not needed. *)
Theorem cog_is_Some (conf : config) :
  is_Some (cog conf) ↔
  ∃ pc, conf !! "particleconversion" = Some pc ∧
    is_Some (pc !! "macro_folder") ∧ is_Some (pc !! "out_filename").
Proof.
  split.
  - intros [g (pc & Hpc & Hmf & Hout & _)%cog_Some]. exists pc. eauto.
  - intros (pc & Hpc & [mf Hmf] & [out Hout]).
    unfold cog. rewrite Hpc. simpl. rewrite Hmf, Hout. simpl. by eexists.
Qed.

Lemma cog_is_Some_witness :
  is_Some (cog conf_batch) ∧
  ¬ is_Some (cog {[ "particleconversion" :=
                      {[ "out_filename" := "out.root";
                         "macro_path" := "batch.mac" ]} ]}).
Proof.
  split.
  - apply (proj2 (cog_is_Some conf_batch)).
    exists {[ "macro_folder" := "macros"; "out_filename" := "out.root";
              "macro_path" := "batch.mac" ]}.
    split; [reflexivity|]. split; by eexists.
  - intros H.
    apply (proj1 (cog_is_Some _)) in H as (pc & Hpc & [mf Hmf] & _).
    vm_compute in Hpc. injection Hpc as <-. vm_compute in Hmf.
    discriminate Hmf.
Defined.

(** [cog] reads nothing but the three entries of the section
    [particleconversion]: another section, or another entry of that
    section, may be added, changed or removed without changing what is
    generated. *)
Theorem cog_reads_three_entries (conf : config) pc section entries k v :
  conf !! "particleconversion" = Some pc →
  section ≠ "particleconversion" →
  k ≠ "macro_folder" → k ≠ "out_filename" → k ≠ "macro_path" →
  cog (<[section := entries]> conf) = cog conf ∧
  cog (delete section conf) = cog conf ∧
  cog (<["particleconversion" := <[k := v]> pc]> conf) = cog conf ∧
  cog (<["particleconversion" := delete k pc]> conf) = cog conf.
Proof.
  intros Hpc Hs Hk1 Hk2 Hk3. unfold cog.
  rewrite (lookup_insert_ne conf section "particleconversion") by done.
  rewrite (lookup_delete_ne conf section "particleconversion") by done.
  rewrite !lookup_insert_eq, Hpc. simpl.
  rewrite (lookup_insert_ne pc k "macro_folder") by done.
  rewrite (lookup_insert_ne pc k "out_filename") by done.
  rewrite (lookup_insert_ne pc k "macro_path") by done.
  rewrite (lookup_delete_ne pc k "macro_folder") by done.
  rewrite (lookup_delete_ne pc k "out_filename") by done.
  rewrite (lookup_delete_ne pc k "macro_path") by done.
  done.
Qed.

Lemma cog_reads_three_entries_witness :
  cog (<["analysis" := {[ "macro_path" := "other.mac" ]}]> conf_batch)
    = cog conf_batch ∧
  cog (<["particleconversion" :=
           <["verbose" := "1"]>
             {[ "macro_folder" := "macros"; "out_filename" := "out.root";
                "macro_path" := "batch.mac" ]}]> conf_batch)
    = cog conf_batch.
Proof.
  destruct (cog_reads_three_entries conf_batch
              {[ "macro_folder" := "macros"; "out_filename" := "out.root";
                 "macro_path" := "batch.mac" ]}
              "analysis" {[ "macro_path" := "other.mac" ]} "verbose" "1")
    as (H1 & _ & H3 & _);
    [reflexivity | discriminate | discriminate | discriminate
    | discriminate |].
  split; [exact H1 | exact H3].
Defined.

(** A path is plain; a text with a backslash or a question mark is not. *)
Example plain_texts :
  plain "/opt/macros/run_1.mac" = true ∧
  plain "a\tb" = false ∧ plain "run??/" = false.
Proof. repeat split; reflexivity. Qed.

(** When the configured entries are plain, no run of the generated program
    asks the command interpreter to execute a macro with no name: the
    block that runs [macro_path] is only generated for a [macro_path] that
    is not empty. *)
Theorem no_empty_macro returns conf g G4MULTITHREADED argv :
  cog conf = Some g →
  plain_literals g = true →
  Forall (λ e, e ≠ Ecall (ApplyCommand "/control/execute "))
    (trace returns g G4MULTITHREADED argv).
Proof.
  intros (pc & _ & _ & _ & Hproc)%cog_Some _.
  destruct (trace_cooperative returns g G4MULTITHREADED argv) as [k Hk].
  cut (Forall (λ e, e ≠ Ecall (ApplyCommand "/control/execute "))
         (trace cooperative g G4MULTITHREADED argv)).
  { rewrite Hk. by intros [? _]%Forall_app. }
  assert (∀ before, Forall (λ e, execution_action e = false) before →
            Forall (λ e, e ≠ Ecall (ApplyCommand "/control/execute "))
              before)
    as Hbefore.
  { intros before Hb. eapply Forall_impl; [exact Hb|].
    intros e He ->. discriminate He. }
  destruct (gen_process g) as [macro_path|] eqn:Hg.
  - assert (macro_path ≠ EmptyString) as Hne.
    { destruct (pc !! "macro_path") as [mp|]; [|done].
      case_decide; by simplify_eq. }
    destruct (trace_RunMacro g G4MULTITHREADED argv macro_path Hg)
      as (before & ? & macroFolder & _ & Hb & _ & ->).
    apply Forall_app. split; [by apply Hbefore|].
    repeat (apply Forall_cons; split; [|]); try apply Forall_nil_2;
      try discriminate; intros H; simplify_eq/=.
  - destruct (trace_UiStart g G4MULTITHREADED argv Hg)
      as (before & ? & macroFolder & _ & Hb & ->).
    apply Forall_app. split; [by apply Hbefore|].
    repeat (apply Forall_cons; split; [|]); try apply Forall_nil_2;
      try discriminate; intros H; simplify_eq/=.
Qed.

Lemma no_empty_macro_witness :
  cog conf_batch =
    Some (Generated "macros" "out.root" (RunMacro "batch.mac")) ∧
  plain_literals (Generated "macros" "out.root" (RunMacro "batch.mac"))
    = true ∧
  Forall (λ e, e ≠ Ecall (ApplyCommand "/control/execute "))
    (trace cooperative
       (Generated "macros" "out.root" (RunMacro "batch.mac")) false
       ["particleconversion"]).
Proof.
  split; [reflexivity|]. split; [reflexivity|].
  apply (no_empty_macro cooperative conf_batch
           (Generated "macros" "out.root" (RunMacro "batch.mac")) false
           ["particleconversion"]); reflexivity.
Defined.

(** ** What [main] writes to [G4cout] *)

Lemma filter_none (f : event → bool) (l : list event) :
  Forall (λ e, f e = false) l → List.filter f l = [].
Proof.
  induction 1 as [|e l He _ IH]; simpl; [done|]. by rewrite He.
Qed.

Lemma filter_notices (f : event → bool) notices :
  Forall (λ e, ∃ text, e = Ecall (Cout text)) notices →
  (∀ text, f (Ecall (Cout text)) = false) →
  List.filter f notices = [].
Proof. intros. by apply filter_none, notices_no_action. Qed.

(** [main] writes to [G4cout] only for one or two arguments, and then two
    statements: the fixed text, and the output file name, followed for two
    arguments by the macro directory.  With no argument or more than two it
    writes nothing: the defaults are taken silently. *)
Theorem notices_written g G4MULTITHREADED program args :
  List.filter is_Cout (trace cooperative g G4MULTITHREADED (program :: args))
  = match args with
    | [a] =>
        [Ecall (Cout "Using command line parameters as out file: ");
         Ecall (Cout (a +:+ G4endl))]
    | [a; d] =>
        [Ecall (Cout "Using command line parameters as out file: ");
         Ecall (Cout (a +:+ " and also for macro directory " +:+ d
                        +:+ G4endl))]
    | _ => []
    end.
Proof.
  destruct (main_cooperative g G4MULTITHREADED (program :: args))
    as (notices & outputfileName & macroFolder & session & n
        & _ & Hp & Hs & Hm).
  unfold trace. rewrite Hm. cbn [snd log].
  rewrite main_parameters_eq in Hp.
  apply main_process_session in Hs as [[_ ->] | (mp & _ & ->)];
    destruct G4MULTITHREADED;
    destruct args as [|a [|d [|x l]]]; unfold start in Hp; simpl in Hp;
    simplify_eq; reflexivity.
Qed.

(** ** The run manager *)

(** In a run that reaches the creation of a run manager, the random engine
    was created and set before, and every call before had returned. *)
Theorem engine_before_run_manager
    returns g G4MULTITHREADED argv before e after :
  trace returns g G4MULTITHREADED argv = before ++ e :: after →
  is_run_manager e = true →
  (∃ l1 l2,
     before = l1 ++ [Enew RanecuEngine 0; Ecall (SetTheEngine 0)] ++ l2) ∧
  ∀ i x, before !! i = Some x → returns i x = true.
Proof.
  intros Htr He. split; [|by eapply trace_returned].
  destruct (main_cooperative g G4MULTITHREADED argv)
    as (notices & outputfileName & macroFolder & session & n
        & Hn & _ & _ & Hm).
  pose proof (trace_cooperative returns g G4MULTITHREADED argv) as Hpre.
  rewrite Htr in Hpre. unfold trace in Hpre. rewrite Hm in Hpre.
  cbn [snd log] in Hpre.
  change (notices ++ ?l ++ ?r) with
    (notices ++ [Enew RanecuEngine 0; Ecall (SetTheEngine 0)] ++
     (drop 2 l ++ r)) in Hpre.
  rewrite app_assoc in Hpre.
  eapply (prefix_reaches is_run_manager) in Hpre as [l ->];
    [|no_such_event|done].
  exists notices, l. by rewrite <- !app_assoc.
Qed.

Lemma engine_before_run_manager_witness :
  let g := Generated "macros" "out.root" (RunMacro "batch.mac") in
  let before := [Enew RanecuEngine 0; Ecall (SetTheEngine 0)] in
  let after :=
    [Enew PhysicsList 2; Ecall (SetUserInitialization 1 2);
     Enew DetectorConstruction 3; Ecall (SetUserInitialization 1 3);
     Enew (ActionInitialization 3 "out.root") 4;
     Ecall (SetUserInitialization 1 4);
     Enew G4VisExecutive 5; Ecall (Initialize 5);
     Ecall GetUIpointer;
     Ecall (ApplyCommand "/control/macroPath macros");
     Ecall (ApplyCommand "/control/execute batch.mac");
     Ecall (Delete 5); Ecall (Delete 1)] in
  trace cooperative g true ["particleconversion"] =
    before ++ Enew G4MTRunManager 1 :: after ∧
  is_run_manager (Enew G4MTRunManager 1) = true ∧
  (∃ l1 l2,
     before = l1 ++ [Enew RanecuEngine 0; Ecall (SetTheEngine 0)] ++ l2) ∧
  ∀ i x, before !! i = Some x → cooperative i x = true.
Proof.
  intros g before after.
  split; [reflexivity|]. split; [reflexivity|].
  apply (engine_before_run_manager cooperative g true
           ["particleconversion"] before (Enew G4MTRunManager 1) after);
    reflexivity.
Defined.

(** A run creates one run manager, of the kind the build flag selects, and
    never one of the other kind: when every call returns it is created
    once, and the run managers created in any run are an initial part of
    that. *)
Theorem one_run_manager returns g (G4MULTITHREADED : bool) argv :
  List.filter is_run_manager (trace cooperative g G4MULTITHREADED argv) =
    [Enew (if G4MULTITHREADED then G4MTRunManager else G4RunManager) 1] ∧
  List.filter is_run_manager (trace returns g G4MULTITHREADED argv)
    `prefix_of`
    [Enew (if G4MULTITHREADED then G4MTRunManager else G4RunManager) 1].
Proof.
  assert (List.filter is_run_manager
            (trace cooperative g G4MULTITHREADED argv) =
          [Enew (if G4MULTITHREADED then G4MTRunManager
                 else G4RunManager) 1]) as Hco.
  { destruct (main_cooperative g G4MULTITHREADED argv)
      as (notices & outputfileName & macroFolder & session & n
          & Hn & _ & Hs & Hm).
    unfold trace. rewrite Hm. cbn [snd log].
    rewrite List.filter_app, (filter_notices _ notices Hn) by done.
    apply main_process_session in Hs as [[_ ->] | (mp & _ & ->)];
      by destruct G4MULTITHREADED. }
  split; [done|].
  destruct (trace_cooperative returns g G4MULTITHREADED argv) as [k Hk].
  rewrite Hk, List.filter_app in Hco. rewrite <- Hco.
  by apply prefix_app_r.
Qed.

(** The build flag changes nothing but the class of the run manager: the
    calls of the build with [G4MULTITHREADED] are those of the build
    without it, one for one. *)
Theorem run_manager_variant g argv :
  trace cooperative g true argv =
  multithreaded <$> trace cooperative g false argv.
Proof.
  destruct (main_cooperative g true argv)
    as (notices & outputfileName & macroFolder & session & n
        & Hn & Hp & Hs & Hm).
  destruct (main_cooperative g false argv)
    as (notices' & outputfileName' & macroFolder' & session' & n'
        & _ & Hp' & Hs' & Hm').
  rewrite Hp in Hp'. simplify_eq. rewrite Hs in Hs'. simplify_eq.
  unfold trace. rewrite Hm, Hm'. cbn [snd log].
  rewrite !fmap_app.
  assert (multithreaded <$> notices' = notices') as ->.
  { clear -Hn. induction Hn as [|e l [text ->] _ IH]; [done|].
    by rewrite fmap_cons, IH. }
  apply main_process_session in Hs as [[_ ->] | (mp & _ & ->)]; done.
Qed.

(** ** Objects created and released *)

(** When every call returns, [main] creates the engine, the run manager,
    the three subsystems and the visualization manager, and a UI session
    only in the [ui_start] block; it releases the UI session (if any), then
    the visualization manager, then the run manager, each once, and
    nothing else: the engine and the three registered subsystems are never
    released by [main]. *)
Theorem created_and_released g (G4MULTITHREADED : bool) argv :
  ∃ outputfileName macroFolder,
    (run cooperative (main_parameters g argv) start).1 =
      Returned (outputfileName, macroFolder) ∧
    List.filter is_new (trace cooperative g G4MULTITHREADED argv) =
      [Enew RanecuEngine 0;
       Enew (if G4MULTITHREADED then G4MTRunManager else G4RunManager) 1;
       Enew PhysicsList 2; Enew DetectorConstruction 3;
       Enew (ActionInitialization 3 outputfileName) 4;
       Enew G4VisExecutive 5] ++
      match gen_process g with
      | UiStart => [Enew (G4UIExecutive (Z.of_nat (length argv)) argv) 6]
      | RunMacro _ => []
      end ∧
    List.filter is_Delete (trace cooperative g G4MULTITHREADED argv) =
      match gen_process g with
      | UiStart => [Ecall (Delete 6)]
      | RunMacro _ => []
      end ++ [Ecall (Delete 5); Ecall (Delete 1)].
Proof.
  destruct (main_cooperative g G4MULTITHREADED argv)
    as (notices & outputfileName & macroFolder & session & n
        & Hn & Hp & Hs & Hm).
  exists outputfileName, macroFolder. split; [by rewrite Hp|].
  unfold trace. rewrite Hm. cbn [snd log].
  rewrite !(List.filter_app _ notices).
  rewrite !(filter_notices _ notices Hn) by done.
  destruct (gen_process g); simpl in Hs; simplify_eq; done.
Qed.

(** ** From the configuration and the arguments to the subsystems *)

(** For a program built from [conf], whose configured entries are plain,
    and called with [args], when every call returns: one action
    initialization is created, with the first
    argument when there are one or two arguments and with the configured
    [out_filename] otherwise; the command interpreter is given two
    commands, first ["/control/macroPath "] followed by the second
    argument when there are two arguments and by the configured
    [macro_folder] otherwise, then ["/control/execute "] followed by
    [vis.mac] or by the configured, non-empty [macro_path]. *)
Theorem parameters_reach_subsystems
    conf pc g G4MULTITHREADED program args :
  conf !! "particleconversion" = Some pc →
  cog conf = Some g →
  plain_literals g = true →
  ∃ outputfileName macroFolder macro,
    List.filter is_ActionInitialization
      (trace cooperative g G4MULTITHREADED (program :: args)) =
      [Enew (ActionInitialization 3 outputfileName) 4] ∧
    List.filter is_ApplyCommand
      (trace cooperative g G4MULTITHREADED (program :: args)) =
      [Ecall (ApplyCommand ("/control/macroPath " +:+ macroFolder));
       Ecall (ApplyCommand ("/control/execute " +:+ macro))] ∧
    match args with
    | [a] => outputfileName = a ∧ pc !! "macro_folder" = Some macroFolder
    | [a; d] => outputfileName = a ∧ macroFolder = d
    | _ => pc !! "out_filename" = Some outputfileName ∧
           pc !! "macro_folder" = Some macroFolder
    end ∧
    match pc !! "macro_path" with
    | None => macro = "vis.mac"
    | Some macro_path =>
        if decide (macro_path = EmptyString) then macro = "vis.mac"
        else macro = macro_path
    end.
Proof.
  intros Hpc (pc' & Hpc' & Hmf & Hout & Hproc)%cog_Some _.
  assert (pc' = pc) as -> by congruence.
  destruct (main_cooperative g G4MULTITHREADED (program :: args))
    as (notices & outputfileName & macroFolder & session & n
        & Hn & Hp & Hs & Hm).
  exists outputfileName, macroFolder,
    match gen_process g with RunMacro mp => mp | UiStart => "vis.mac" end.
  unfold trace. rewrite Hm. cbn [snd log].
  rewrite !(List.filter_app _ notices).
  rewrite !(filter_notices _ notices Hn) by done.
  split; [|split; [|split]].
  - by destruct (gen_process g), G4MULTITHREADED; simpl in Hs; simplify_eq.
  - by destruct (gen_process g), G4MULTITHREADED; simpl in Hs; simplify_eq.
  - rewrite main_parameters_eq in Hp.
    destruct args as [|a [|d [|x l]]]; unfold start in Hp; simpl in Hp;
      by simplify_eq.
  - rewrite Hproc. destruct (pc !! "macro_path") as [mp|]; [|done].
    destruct (decide (mp = EmptyString)); by case_decide.
Qed.

Lemma parameters_reach_subsystems_witness :
  let pc : gmap string string :=
    {[ "macro_folder" := "macros"; "out_filename" := "out.root";
       "macro_path" := "batch.mac" ]} in
  let g := Generated "macros" "out.root" (RunMacro "batch.mac") in
  let argv := ["particleconversion"; "run7.root"; "/opt/macros"] in
  conf_batch !! "particleconversion" = Some pc ∧
  cog conf_batch = Some g ∧
  plain_literals g = true ∧
  List.filter is_ActionInitialization (trace cooperative g true argv) =
    [Enew (ActionInitialization 3 "run7.root") 4] ∧
  List.filter is_ApplyCommand (trace cooperative g true argv) =
    [Ecall (ApplyCommand "/control/macroPath /opt/macros");
     Ecall (ApplyCommand "/control/execute batch.mac")].
Proof.
  intros pc g argv.
  split; [reflexivity|]. split; [reflexivity|]. split; [reflexivity|].
  destruct (parameters_reach_subsystems conf_batch pc g true
              "particleconversion" ["run7.root"; "/opt/macros"])
    as (outputfileName & macroFolder & macro & Ha & Hc & [-> ->] & Hm);
    [reflexivity | reflexivity | reflexivity |].
  vm_compute in Hm. subst macro. split; [exact Ha | exact Hc].
Defined.
